(** * The Playwright gRPC wrapper (src/Browser/wrapper/index.ts)

    A shallow embedding of the [PlaywrightServer] class: its single mutable
    field [browserState], the precondition helper [exists], the session
    constructor [createBrowserState] and the sixteen RPC handlers.

    Each handler is an [async] method.  It is embedded as a computation in a
    small monad that threads

    - the field [this.browserState] and the state of the browser engine,
    - the events the handler emits, in program order: [console.log] lines,
      calls into the Playwright engine and invocations of the gRPC
      [callback],
    - JavaScript exceptions (a rejected promise of the handler).

    Handlers are run one at a time: interleaving of several pending
    handlers at their [await] points is outside this model. *)

From Stdlib Require Import String List ZArith DecimalString.
Import ListNotations.

Local Open Scope list_scope.
Local Open Scope string_scope.

(** ** gRPC status codes

    [status] is imported from the [grpc] package; the wrapper uses it only as
    the numeric [code] of [PwserverError].  Values as in grpc's
    [constants.js]. *)
Module status.
Definition INVALID_ARGUMENT : Z := 3.
Definition NOT_FOUND : Z := 5.
Definition FAILED_PRECONDITION : Z := 9.
End status.

(** ** JavaScript values and errors *)

(** Primitive values, as returned by [JSHandle.jsonValue()].  Numbers are
    restricted to integers, and of a magnitude below 10^21: there JavaScript
    prints a number in plain decimal, as [toString] below does (from 10^21
    on it prints an exponent form, which is not modelled; there is no NaN
    either). *)
Inductive JsValue : Type :=
| JUndefined
| JNull
| JBool (b : bool)
| JNumber (n : Z)
| JString (s : string).

(** [ToBoolean]. *)
Definition truthy (v : JsValue) : bool :=
  match v with
  | JUndefined | JNull => false
  | JBool b => b
  | JNumber n => negb (n =? 0)%Z
  | JString s => negb (s =? "")
  end.

(** [ToString], as applied by template literals and by [+] on strings. *)
Definition toString (v : JsValue) : string :=
  match v with
  | JUndefined => "undefined"
  | JNull => "null"
  | JBool true => "true"
  | JBool false => "false"
  | JNumber n => NilZero.string_of_int (Z.to_int n)
  | JString s => s
  end.

(** [ToNumber] on the two kinds of operand compared in [getSelectContent]. *)
Definition toNumber_string_empty : Z := 0.
Definition toNumber_bool (b : bool) : Z := if b then 1 else 0.

(** The loose inequality [expr != b] with the empty string on the left and a
    boolean on the right: both operands are converted to numbers. *)
Definition empty_string_loose_neq (b : bool) : bool :=
  negb (toNumber_string_empty =? toNumber_bool b)%Z.

(** [Array.prototype.toString] on an array of strings (what a template
    literal does with an array): the elements joined by commas. *)
Fixpoint join_comma (l : list string) : string :=
  match l with
  | [] => ""
  | [s] => s
  | s :: rest => s ++ "," ++ join_comma rest
  end.

(** The errors that can travel through a handler. *)
Inductive JsError : Type :=
| Error (message : string)
    (** [new Error(message)]: no [code] property. *)
| TypeError (property : string)
    (** Reading [property] of [undefined] or [null]. *)
| PwserverError (details : string) (code : Z)
    (** [class PwserverError extends Error implements ServiceError]. *)
| EngineError (message : string)
    (** An error thrown by Playwright itself. *).

(** The [code] property of an error, if it has one. *)
Definition error_code (e : JsError) : option Z :=
  match e with
  | PwserverError _ code => Some code
  | _ => None
  end.

(** ** Engine handles *)

Inductive Browser : Type := MkBrowser (id : nat).
Inductive BrowserContext : Type := MkBrowserContext (id : nat).
Inductive Page : Type := MkPage (id : nat).
Inductive ElementHandle : Type := MkElementHandle (id : nat).
Inductive JSHandle : Type := MkJSHandle (id : nat).

(** [class BrowserState]. *)
Record BrowserState : Type := new_BrowserState {
  browser : Browser;
  context : BrowserContext;
  page : Page
}.

(** ** Protocol messages (generated/playwright_pb) *)

Module openBrowserRequest.
Record t : Type := make { getBrowser : string; getUrl : string }.
End openBrowserRequest.

Module goToRequest.
Record t : Type := make { getUrl : string }.
End goToRequest.

Module selectorRequest.
Record t : Type := make { getSelector : string }.
End selectorRequest.

Module getDomPropertyRequest.
Record t : Type := make { getSelector : string; getProperty : string }.
End getDomPropertyRequest.

Module inputTextRequest.
Record t : Type := make { getInput : string; getSelector : string }.
End inputTextRequest.

Module selectOptionRequest.
Record t : Type := make { getSelector : string; getMatcherList : list string }.
End selectOptionRequest.

Module screenshotRequest.
Record t : Type := make { getPath : string }.
End screenshotRequest.

Record SelectEntry : Type := new_SelectEntry {
  entry_label : string;
  entry_value : string;
  entry_selected : bool
}.

(** The four response messages.  A setter stores its argument as it is, so a
    [body] set from an untyped engine value holds a [JsValue]. *)
Inductive Response : Type :=
| Response_Empty (log : string)
| Response_String (body : JsValue)
| Response_Bool (body : JsValue)
| Response_Select (entryList : list SelectEntry).

(** ** The Playwright engine *)

Inductive BrowserTypeName : Type := firefox | chromium | webkit.

(** The options object given to [launch]. *)
Record LaunchOptions : Type := { headless : bool }.

(** What [$$eval]'s page function can read of a matched [<option>]. *)
Record OptionElement : Type := {
  label : string;
  value : string;
  selected : bool
}.

(** The calls the wrapper makes into Playwright. *)
Inductive PwCall : Type :=
| BrowserType_launch (bt : BrowserTypeName) (options : option LaunchOptions)
| Browser_newContext (b : Browser)
| BrowserContext_newPage (c : BrowserContext)
| Browser_close (b : Browser)
| Page_goto (p : Page) (url : string)
| Page_title (p : Page)
| Page_url (p : Page)
| Page_textContent (p : Page) (selector : string)
| Page_query (p : Page) (selector : string)              (* page.$ *)
| ElementHandle_getProperty (e : ElementHandle) (property : string)
| JSHandle_jsonValue (h : JSHandle)
| Page_queryAll_eval (p : Page) (selector : string)      (* page.$$eval *)
| Page_fill (p : Page) (selector : string) (text : string)
| Page_click (p : Page) (selector : string)
| Page_check (p : Page) (selector : string)
| Page_uncheck (p : Page) (selector : string)
| Page_selectOption (p : Page) (selector : string) (values : list string)
| Page_screenshot (p : Page) (path : string).

(** The type of what each call resolves to. *)
Definition PwResult (c : PwCall) : Type :=
  match c with
  | BrowserType_launch _ _ => Browser
  | Browser_newContext _ => BrowserContext
  | BrowserContext_newPage _ => Page
  | Browser_close _ => unit
  | Page_goto _ _ => unit
  | Page_title _ => string
  | Page_url _ => string
  | Page_textContent _ _ => option string
  | Page_query _ _ => option ElementHandle
  | ElementHandle_getProperty _ _ => JSHandle
  | JSHandle_jsonValue _ => JsValue
  | Page_queryAll_eval _ _ => list OptionElement
  | Page_fill _ _ _ => unit
  | Page_click _ _ => unit
  | Page_check _ _ => unit
  | Page_uncheck _ _ => unit
  | Page_selectOption _ _ _ => list string
  | Page_screenshot _ _ => unit
  end.

(** ** Events and the handler monad *)

Inductive Event : Type :=
| Log (text : string)                                     (* console.log *)
| Engine (c : PwCall)                                     (* a call into Playwright *)
| Callback (err : option JsError) (resp : option Response) (* callback(err, resp) *).

Inductive Outcome (A : Type) : Type :=
| Return (a : A)
| Throw (e : JsError).
Arguments Return {A} a.
Arguments Throw {A} e.

(** A handler over a server state [S]: from a state to an outcome, the new
    state and the events emitted on the way. *)
Definition M (S A : Type) : Type := S -> Outcome A * S * list Event.

Definition ret {S A} (a : A) : M S A := fun s => (Return a, s, []).

Definition throw {S A} (e : JsError) : M S A := fun s => (Throw e, s, []).

Definition bind {S A B} (m : M S A) (f : A -> M S B) : M S B :=
  fun s =>
    match m s with
    | (Return a, s1, t1) =>
        match f a s1 with
        | (o, s2, t2) => (o, s2, (t1 ++ t2)%list)
        end
    | (Throw e, s1, t1) => (Throw e, s1, t1)
    end.

Definition emit {S} (e : Event) : M S unit := fun s => (Return tt, s, [e]).

Declare Scope handler_scope.
Delimit Scope handler_scope with handler.
Notation "x <- m ;; k" := (bind m (fun x => k))
  (at level 61, m at next level, right associativity) : handler_scope.
Notation "m ;; k" := (bind m (fun _ => k))
  (at level 61, right associativity) : handler_scope.
Local Open Scope handler_scope.

(** [console.log(text)]. *)
Definition console_log {S} (text : string) : M S unit := emit (Log text).

(** Member access [obj.property] on a value that may be [undefined] or
    [null]: a [TypeError] when it is. *)
Definition field {S T A} (obj : option T) (property : string) (get : T -> A) : M S A :=
  match obj with
  | Some o => ret (get o)
  | None => throw (TypeError property)
  end.

(** The outcome, final state and events of a run. *)
Definition outcome {S A} (r : Outcome A * S * list Event) : Outcome A := fst (fst r).
Definition final {S A} (r : Outcome A * S * list Event) : S := snd (fst r).
Definition events {S A} (r : Outcome A * S * list Event) : list Event := snd r.

(** The engine calls of a trace, in order. *)
Fixpoint engineCalls (t : list Event) : list PwCall :=
  match t with
  | [] => []
  | Engine c :: t' => c :: engineCalls t'
  | _ :: t' => engineCalls t'
  end.

(** The [callback] invocations of a trace, in order. *)
Fixpoint callbacks (t : list Event) : list (option JsError * option Response) :=
  match t with
  | [] => []
  | Callback err resp :: t' => (err, resp) :: callbacks t'
  | _ :: t' => callbacks t'
  end.

(** The empty request message. *)
Inductive Empty : Type := new_Empty.

(** [function emptyWithLog(text)]. *)
Definition emptyWithLog (text : string) : Response := Response_Empty text.

(** [content?.toString() || ""] on a [string | null]. *)
Definition toString_or_empty (content : option string) : string :=
  match content with
  | Some s => if s =? "" then "" else s
  | None => ""
  end.

Section Server.

(** The engine is a state machine over some world [W]: every call steps the
    world and either resolves to a value or rejects with an error. *)
Variable W : Type.
Variable pw : forall c : PwCall, W -> Outcome (PwResult c) * W.

(** The server object and the engine behind it. *)
Record State : Type := mkState {
  browserState : option BrowserState;     (* private browserState?: BrowserState *)
  world : W
}.

Definition this_browserState : M State (option BrowserState) :=
  fun s => (Return (browserState s), s, []).

Definition set_browserState (v : option BrowserState) : M State unit :=
  fun s => (Return tt, mkState v (world s), []).

(** An awaited (or synchronous) call into Playwright. *)
Definition engine (c : PwCall) : M State (PwResult c) :=
  fun s =>
    match pw c (world s) with
    | (o, w') => (o, mkState (browserState s) w', [Engine c])
    end.

(** [sendUnaryData<T>]. *)
Definition sendUnaryData : Type := option JsError -> option Response -> M State unit.

(** The callback grpc hands to a handler: it sends the response. *)
Definition grpc_callback : sendUnaryData := fun err resp => emit (Callback err resp).

(** [function exists(obj, callback, message)].  It returns normally in both
    branches. *)
Definition exists_ {T} (obj : option T) (callback : sendUnaryData) (message : string)
  : M State unit :=
  match obj with
  | None => callback (Some (PwserverError message status.FAILED_PRECONDITION)) None
  | Some _ => ret tt
  end.

(** [async function createBrowserState(browserType)]. *)
Definition createBrowserState (browserType : string) : M State BrowserState :=
  let headless := true in
  b <- (if browserType =? "firefox" then
          engine (BrowserType_launch firefox (Some {| headless := headless |}))
        else if browserType =? "chrome" then
          engine (BrowserType_launch chromium (Some {| headless := headless |}))
        else if browserType =? "webkit" then
          engine (BrowserType_launch webkit None)
        else throw (Error "unsupported browser")) ;;
  c <- engine (Browser_newContext b) ;;
  p <- engine (BrowserContext_newPage c) ;;
  ret (new_BrowserState b c p).

(** [private async openUrlInPage(url, page)]. *)
Definition openUrlInPage (url : string) (pg : option Page) : M State string :=
  console_log ("Go to url" ++ url) ;;
  p <- field pg "goto" (fun p => p) ;;
  engine (Page_goto p url) ;;
  ret ("Succesfully opened URL " ++ url).

(** [async closeBrowser(call, callback)]. *)
Definition closeBrowser (call : Empty) (callback : sendUnaryData) : M State unit :=
  bs <- this_browserState ;;
  exists_ bs callback "Tried to close browser but none was open" ;;
  bs <- this_browserState ;;
  b <- field bs "browser" browser ;;
  engine (Browser_close b) ;;
  set_browserState None ;;
  console_log "Closed browser" ;;
  let response := emptyWithLog "Closed browser" in
  callback None (Some response).

(** [async openBrowser(call, callback)]. *)
Definition openBrowser (call : openBrowserRequest.t) (callback : sendUnaryData)
  : M State unit :=
  let browserType := openBrowserRequest.getBrowser call in
  let url := openBrowserRequest.getUrl call in
  console_log ("Open browser: " ++ browserType) ;;
  bs <- createBrowserState browserType ;;
  set_browserState (Some bs) ;;
  let response := Response_Empty "" in
  response <- (if negb (url =? "") then
                 bs <- this_browserState ;;
                 returnValue <- openUrlInPage url (option_map page bs) ;;
                 ret (Response_Empty returnValue)
               else ret response) ;;
  console_log "Browser opened" ;;
  callback None (Some response).

(** [async goTo(call, callback)]. *)
Definition goTo (call : goToRequest.t) (callback : sendUnaryData) : M State unit :=
  let url := goToRequest.getUrl call in
  console_log ("Go to URL: " ++ url) ;;
  bs <- this_browserState ;;
  exists_ bs callback "Tried to open URl but had no browser open" ;;
  bs <- this_browserState ;;
  p <- field bs "page" page ;;
  engine (Page_goto p url) ;;
  let response := emptyWithLog "Succesfully opened URL" in
  callback None (Some response).

(** [async getTitle(call, callback)]. *)
Definition getTitle (call : Empty) (callback : sendUnaryData) : M State unit :=
  bs <- this_browserState ;;
  exists_ bs callback "Tried to get title, no open browser" ;;
  console_log "Getting title" ;;
  bs <- this_browserState ;;
  p <- field bs "page" page ;;
  title <- engine (Page_title p) ;;
  callback None (Some (Response_String (JString title))).

(** [async getUrl(call, callback)]. *)
Definition getUrl (call : Empty) (callback : sendUnaryData) : M State unit :=
  bs <- this_browserState ;;
  exists_ bs callback "Tried to get page URL, no open browser" ;;
  console_log "Getting URL" ;;
  bs <- this_browserState ;;
  p <- field bs "page" page ;;
  url <- engine (Page_url p) ;;
  callback None (Some (Response_String (JString url))).

(** [async getTextContent(call, callback)]. *)
Definition getTextContent (call : selectorRequest.t) (callback : sendUnaryData)
  : M State unit :=
  bs <- this_browserState ;;
  exists_ bs callback "Tried to find text on page, no open browser" ;;
  let selector := selectorRequest.getSelector call in
  bs <- this_browserState ;;
  p <- field bs "page" page ;;
  content <- engine (Page_textContent p selector) ;;
  callback None (Some (Response_String (JString (toString_or_empty content)))).

(** [async getDomProperty(call, callback)]. *)
Definition getDomProperty (call : getDomPropertyRequest.t) (callback : sendUnaryData)
  : M State unit :=
  bs <- this_browserState ;;
  exists_ bs callback "Tried to get DOM property, no open browser" ;;
  let selector := getDomPropertyRequest.getSelector call in
  let property := getDomPropertyRequest.getProperty call in
  bs <- this_browserState ;;
  p <- field bs "page" page ;;
  element <- engine (Page_query p selector) ;;
  exists_ element callback ("Couldn't find element: " ++ selector) ;;
  e <- field element "getProperty" (fun e => e) ;;
  result <- engine (ElementHandle_getProperty e property) ;;
  content <- engine (JSHandle_jsonValue result) ;;
  console_log ("Retrieved dom property for element " ++ selector
               ++ " containing " ++ toString content) ;;
  callback None (Some (Response_String content)).

(** [async getBoolProperty(call, callback)]. *)
Definition getBoolProperty (call : getDomPropertyRequest.t) (callback : sendUnaryData)
  : M State unit :=
  bs <- this_browserState ;;
  exists_ bs callback "Tried to get DOM property, no open browser" ;;
  let selector := getDomPropertyRequest.getSelector call in
  let property := getDomPropertyRequest.getProperty call in
  bs <- this_browserState ;;
  p <- field bs "page" page ;;
  element <- engine (Page_query p selector) ;;
  exists_ element callback ("Couldn't find element: " ++ selector) ;;
  e <- field element "getProperty" (fun e => e) ;;
  result <- engine (ElementHandle_getProperty e property) ;;
  content <- engine (JSHandle_jsonValue result) ;;
  console_log ("Retrieved dom property for element " ++ selector
               ++ " containing " ++ toString content) ;;
  callback None (Some (Response_Bool (if truthy content then content else JBool false))).

(** The page function given to [$$eval] in [getSelectContent], on one
    element. *)
Definition option_triple (element : OptionElement) : string * string * bool :=
  (label element, value element, empty_string_loose_neq (selected element)).

(** The body of the [forEach] in [getSelectContent]: one [addEntry]. *)
Definition addEntry (entryList : list SelectEntry) (option : string * string * bool)
  : list SelectEntry :=
  let '(label, value, selected) := option in
  let entry := new_SelectEntry label value selected in
  (entryList ++ [entry])%list.

(** [async getSelectContent(call, callback)]. *)
Definition getSelectContent (call : selectorRequest.t) (callback : sendUnaryData)
  : M State unit :=
  bs <- this_browserState ;;
  exists_ bs callback "Tried to get Select element contents, no open browser" ;;
  let selector := selectorRequest.getSelector call in
  bs <- this_browserState ;;
  p <- field bs "page" page ;;
  elements <- engine (Page_queryAll_eval p (selector ++ " option")) ;;
  let content := map option_triple elements in
  let response := fold_left addEntry content [] in
  callback None (Some (Response_Select response)).

(** [async inputText(call, callback)]. *)
Definition inputText (call : inputTextRequest.t) (callback : sendUnaryData)
  : M State unit :=
  bs <- this_browserState ;;
  exists_ bs callback "Tried to input text, no open browser" ;;
  let inputText := inputTextRequest.getInput call in
  let selector := inputTextRequest.getSelector call in
  bs <- this_browserState ;;
  p <- field bs "page" page ;;
  engine (Page_fill p selector inputText) ;;
  let response := emptyWithLog ("Input text: " ++ inputText) in
  callback None (Some response).

(** [async clickButton(call, callback)]. *)
Definition clickButton (call : selectorRequest.t) (callback : sendUnaryData)
  : M State unit :=
  bs <- this_browserState ;;
  exists_ bs callback "Tried to click button, no open browser" ;;
  let selector := selectorRequest.getSelector call in
  bs <- this_browserState ;;
  p <- field bs "page" page ;;
  engine (Page_click p selector) ;;
  let response := emptyWithLog ("Clicked button: " ++ selector) in
  callback None (Some response).

(** [async checkCheckbox(call, callback)]. *)
Definition checkCheckbox (call : selectorRequest.t) (callback : sendUnaryData)
  : M State unit :=
  bs <- this_browserState ;;
  exists_ bs callback "Tried to check checkbox, no open browser" ;;
  let selector := selectorRequest.getSelector call in
  bs <- this_browserState ;;
  p <- field bs "page" page ;;
  engine (Page_check p selector) ;;
  let response := emptyWithLog ("Checked checkbox: " ++ selector) in
  callback None (Some response).

(** [async uncheckCheckbox(call, callback)]. *)
Definition uncheckCheckbox (call : selectorRequest.t) (callback : sendUnaryData)
  : M State unit :=
  bs <- this_browserState ;;
  exists_ bs callback "Tried to uncheck checkbox, no open browser" ;;
  let selector := selectorRequest.getSelector call in
  bs <- this_browserState ;;
  p <- field bs "page" page ;;
  engine (Page_uncheck p selector) ;;
  let response := emptyWithLog ("Unhecked checkbox: " ++ selector) in
  callback None (Some response).

(** [async selectOption(call, callback)].  The [if] has no [return]: control
    falls through to the statements after it. *)
Definition selectOption (call : selectOptionRequest.t) (callback : sendUnaryData)
  : M State unit :=
  bs <- this_browserState ;;
  exists_ bs callback "Tried to select ``select`` element option, no open browser" ;;
  let selector := selectOptionRequest.getSelector call in
  let matcher := selectOptionRequest.getMatcherList call in
  console_log ("Selecting from element " ++ selector
               ++ " options " ++ join_comma matcher) ;;
  bs <- this_browserState ;;
  p <- field bs "page" page ;;
  result <- engine (Page_selectOption p selector matcher) ;;
  (if (length result =? 0)%nat then
     console_log "Couldn't select any options" ;;
     let error := PwserverError ("No options matched " ++ join_comma matcher)
                                status.NOT_FOUND in
     callback (Some error) None
   else ret tt) ;;
  let response := emptyWithLog ("Selected options " ++ join_comma result
                                ++ " in element " ++ selector) in
  callback None (Some response).

(** [async health(call, callback)]. *)
Definition health (call : Empty) (callback : sendUnaryData) : M State unit :=
  callback None (Some (Response_String (JString "OK"))).

(** [async screenshot(call, callback)]. *)
Definition screenshot (call : screenshotRequest.t) (callback : sendUnaryData)
  : M State unit :=
  bs <- this_browserState ;;
  exists_ bs callback "Tried to take screenshot, no open browser" ;;
  let path := screenshotRequest.getPath call ++ ".png" in
  console_log ("Taking a screenshot of current page to " ++ path) ;;
  bs <- this_browserState ;;
  p <- field bs "page" page ;;
  engine (Page_screenshot p path) ;;
  let response := emptyWithLog "Succesfully took screenshot" in
  callback None (Some response).

(** ** The service

    [server.addService(PlaywrightService, new PlaywrightServer())]: grpc
    routes each incoming call to the method of its operation and hands it
    the callback that sends the response. *)
Inductive Request : Type :=
| OpenBrowser (call : openBrowserRequest.t)
| CloseBrowser (call : Empty)
| GoTo (call : goToRequest.t)
| GetTitle (call : Empty)
| GetUrl (call : Empty)
| GetTextContent (call : selectorRequest.t)
| GetDomProperty (call : getDomPropertyRequest.t)
| GetBoolProperty (call : getDomPropertyRequest.t)
| GetSelectContent (call : selectorRequest.t)
| InputText (call : inputTextRequest.t)
| ClickButton (call : selectorRequest.t)
| CheckCheckbox (call : selectorRequest.t)
| UncheckCheckbox (call : selectorRequest.t)
| SelectOption (call : selectOptionRequest.t)
| Health (call : Empty)
| Screenshot (call : screenshotRequest.t).

Definition serve (r : Request) : M State unit :=
  match r with
  | OpenBrowser call => openBrowser call grpc_callback
  | CloseBrowser call => closeBrowser call grpc_callback
  | GoTo call => goTo call grpc_callback
  | GetTitle call => getTitle call grpc_callback
  | GetUrl call => getUrl call grpc_callback
  | GetTextContent call => getTextContent call grpc_callback
  | GetDomProperty call => getDomProperty call grpc_callback
  | GetBoolProperty call => getBoolProperty call grpc_callback
  | GetSelectContent call => getSelectContent call grpc_callback
  | InputText call => inputText call grpc_callback
  | ClickButton call => clickButton call grpc_callback
  | CheckCheckbox call => checkCheckbox call grpc_callback
  | UncheckCheckbox call => uncheckCheckbox call grpc_callback
  | SelectOption call => selectOption call grpc_callback
  | Health call => health call grpc_callback
  | Screenshot call => screenshot call grpc_callback
  end.

End Server.

Arguments mkState {W} browserState world.
Arguments browserState {W} s.
Arguments world {W} s.
Arguments serve {W} pw r s.
Arguments createBrowserState {W} pw browserType s.
Arguments exists_ {W T} obj callback message s.
Arguments grpc_callback {W} err resp s.

(** ** A client session

    One client that issues its calls one at a time: each call is served on
    the state the previous one left, whether its handler returned or threw.
    A handler that throws is a rejected promise nobody awaits; the model
    takes the process to go on serving after it (Node then only warns about
    the unhandled rejection). *)
Section Client.

Variable W : Type.
Variable pw : forall c : PwCall, W -> Outcome (PwResult c) * W.

Fixpoint serve_all (rs : list Request) (s : State W) : State W * list Event :=
  match rs with
  | [] => (s, [])
  | r :: rs' =>
      let served := serve pw r s in
      let rest := serve_all rs' (final served) in
      (fst rest, (events served ++ snd rest)%list)
  end.

End Client.

Arguments serve_all {W} pw rs s.

(** ** A scripted engine

    A small deterministic engine, used to run the handlers on concrete
    inputs.  Handles are numbered from a counter; an [offline] engine rejects
    [close] and [goto]; the page holds one [<select>] with the options
    A/a (selected) and B/b, and nothing matches the selector [#missing]. *)
Module Demo.

Record World : Type := { next_id : nat; offline : bool }.

Definition bump (w : World) : World :=
  {| next_id := S (next_id w); offline := offline w |}.

Definition options : list OptionElement :=
  [ {| label := "A"; value := "a"; selected := true |};
    {| label := "B"; value := "b"; selected := false |} ].

Definition pw (c : PwCall) (w : World) : Outcome (PwResult c) * World :=
  match c return Outcome (PwResult c) * World with
  | BrowserType_launch _ _ => (Return (MkBrowser (next_id w)), bump w)
  | Browser_newContext _ => (Return (MkBrowserContext (next_id w)), bump w)
  | BrowserContext_newPage _ => (Return (MkPage (next_id w)), bump w)
  | Browser_close _ =>
      if offline w then (Throw (EngineError "Browser has been closed"), w)
      else (Return tt, w)
  | Page_goto _ url =>
      if (offline w || (url =? "http://unreachable.invalid"))%bool
      then (Throw (EngineError "net::ERR_NAME_NOT_RESOLVED"), w)
      else (Return tt, w)
  | Page_title _ => (Return "Demo page", w)
  | Page_url _ => (Return "about:blank", w)
  | Page_textContent _ selector =>
      (Return (if selector =? "#missing" then None else Some "text"), w)
  | Page_query _ selector =>
      (Return (if selector =? "#missing" then None else Some (MkElementHandle 0)), w)
  | ElementHandle_getProperty _ _ => (Return (MkJSHandle 0), w)
  | JSHandle_jsonValue _ => (Return (JBool true), w)
  | Page_queryAll_eval _ selector =>
      (Return (if selector =? "select option" then options else []), w)
  | Page_fill _ _ _ => (Return tt, w)
  | Page_click _ _ => (Return tt, w)
  | Page_check _ _ => (Return tt, w)
  | Page_uncheck _ _ => (Return tt, w)
  | Page_selectOption _ _ values =>
      (Return (filter (fun v => ((v =? "a") || (v =? "b"))%bool) values), w)
  | Page_screenshot _ _ => (Return tt, w)
  end.

(** The server at startup: no session. *)
Definition startup : State World :=
  mkState None {| next_id := 0; offline := false |}.

(** A server with an open session. *)
Definition session : BrowserState :=
  new_BrowserState (MkBrowser 0) (MkBrowserContext 1) (MkPage 2).

Definition opened : State World :=
  mkState (Some session) {| next_id := 3; offline := false |}.

(** The same, after the engine has lost its browser. *)
Definition opened_offline : State World :=
  mkState (Some session) {| next_id := 3; offline := true |}.

End Demo.

(** ** A failing engine

    The scripted engine, except that no browsing context can be opened: the
    launch succeeds and [newContext] rejects. *)
Module Faulty.

Definition pw (c : PwCall) (w : Demo.World) : Outcome (PwResult c) * Demo.World :=
  match c return Outcome (PwResult c) * Demo.World with
  | Browser_newContext _ => (Throw (EngineError "Target closed"), w)
  | c' => Demo.pw c' w
  end.

End Faulty.

(** ** Vocabulary of the properties *)

(** The operations that act on the session: all but [OpenBrowser] and
    [Health]. *)
Definition requires_session (r : Request) : bool :=
  match r with
  | OpenBrowser _ | Health _ => false
  | _ => true
  end.

(** The message each of them gives to [exists] for the session check. *)
Definition no_session_message (r : Request) : string :=
  match r with
  | OpenBrowser _ | Health _ => ""
  | CloseBrowser _ => "Tried to close browser but none was open"
  | GoTo _ => "Tried to open URl but had no browser open"
  | GetTitle _ => "Tried to get title, no open browser"
  | GetUrl _ => "Tried to get page URL, no open browser"
  | GetTextContent _ => "Tried to find text on page, no open browser"
  | GetDomProperty _ => "Tried to get DOM property, no open browser"
  | GetBoolProperty _ => "Tried to get DOM property, no open browser"
  | GetSelectContent _ => "Tried to get Select element contents, no open browser"
  | InputText _ => "Tried to input text, no open browser"
  | ClickButton _ => "Tried to click button, no open browser"
  | CheckCheckbox _ => "Tried to check checkbox, no open browser"
  | UncheckCheckbox _ => "Tried to uncheck checkbox, no open browser"
  | SelectOption _ => "Tried to select ``select`` element option, no open browser"
  | Screenshot _ => "Tried to take screenshot, no open browser"
  end.

(** The member of the session a handler reads first. *)
Definition first_member_read (r : Request) : string :=
  match r with
  | CloseBrowser _ => "browser"
  | _ => "page"
  end.

(** A failure sent to the caller: [callback(error, null)] with an error of
    the given message and status code. *)
Definition failure (message : string) (code : Z) : option JsError * option Response :=
  (Some (PwserverError message code), None).

(** A success sent to the caller: [callback(null, response)]. *)
Definition success (response : Response) : option JsError * option Response :=
  (None, Some response).

(** A run fails with a given status code when an error carrying that code
    is sent through the callback or rejects the handler. *)
Definition fails_with_code {S A} (code : Z) (r : Outcome A * S * list Event) : Prop :=
  (exists e, In (Some e, None) (callbacks (events r)) /\ error_code e = Some code)
  \/ (exists e, outcome r = Throw e /\ error_code e = Some code).

(** The engine call [selectOption] makes for a request on a session. *)
Definition selectOption_call (bs : BrowserState) (call : selectOptionRequest.t) : PwCall :=
  Page_selectOption (page bs) (selectOptionRequest.getSelector call)
                    (selectOptionRequest.getMatcherList call).

(** The message of the NOT_FOUND error of [selectOption]. *)
Definition no_options_matched (call : selectOptionRequest.t) : string :=
  "No options matched " ++ join_comma (selectOptionRequest.getMatcherList call).

(** The response entry that shows an [<option>] as it is. *)
Definition entry_of (element : OptionElement) : SelectEntry :=
  new_SelectEntry (label element) (value element) (selected element).

(** *** Vocabulary of the invariants of all handlers *)

(** [callback(error, null)] or [callback(null, response)]: exactly one side
    is given. *)
Definition one_sided (cb : option JsError * option Response) : bool :=
  match cb with
  | (Some _, None) | (None, Some _) => true
  | _ => false
  end.

Definition is_success (cb : option JsError * option Response) : bool :=
  match cb with
  | (None, Some _) => true
  | _ => false
  end.

Definition is_SelectOption (r : Request) : bool :=
  match r with
  | SelectOption _ => true
  | _ => false
  end.

(** The status codes a request can be answered with: FAILED_PRECONDITION,
    and NOT_FOUND for SelectOption. *)
Definition code_allowed (r : Request) (cb : option JsError * option Response) : bool :=
  match cb with
  | (Some (PwserverError _ code), _) =>
      ((code =? status.FAILED_PRECONDITION)%Z
       || ((code =? status.NOT_FOUND)%Z && is_SelectOption r))%bool
  | (Some _, _) => false
  | (None, _) => true
  end.

(** The response message a handler is declared to send
    ([sendUnaryData<Response.Empty>] and so on). *)
Definition response_declared (r : Request) (resp : Response) : bool :=
  match r, resp with
  | (OpenBrowser _ | CloseBrowser _ | GoTo _ | InputText _ | ClickButton _
     | CheckCheckbox _ | UncheckCheckbox _ | SelectOption _ | Screenshot _),
    Response_Empty _ => true
  | (GetTitle _ | GetUrl _ | GetTextContent _ | GetDomProperty _ | Health _),
    Response_String _ => true
  | GetBoolProperty _, Response_Bool _ => true
  | GetSelectContent _, Response_Select _ => true
  | _, _ => false
  end.

Definition response_allowed (r : Request) (cb : option JsError * option Response) : bool :=
  match cb with
  | (_, Some resp) => response_declared r resp
  | (_, None) => true
  end.

(** No engine call comes after a callback. *)
Fixpoint quiet_after_callback (t : list Event) : bool :=
  match t with
  | [] => true
  | Callback _ _ :: t' =>
      match engineCalls t' with
      | [] => quiet_after_callback t'
      | _ :: _ => false
      end
  | _ :: t' => quiet_after_callback t'
  end.

(** The responses of a run against its outcome: a run that returns has sent
    one success, after failures only; a run that throws has sent failures
    only. *)
Definition answered_as_ended {S A} (r : Outcome A * S * list Event) : bool :=
  match outcome r, rev (callbacks (events r)) with
  | Return _, cb :: before => (is_success cb && forallb (fun c => negb (is_success c)) before)%bool
  | Return _, [] => false
  | Throw _, all => forallb (fun c => negb (is_success c)) all
  end.

(** An engine call that acts on the handles of a session, or on a handle
    the engine gave out for one of its elements. *)
Definition on_session (bs : BrowserState) (c : PwCall) : Prop :=
  match c with
  | BrowserType_launch _ _ | Browser_newContext _ | BrowserContext_newPage _ => False
  | Browser_close b => b = browser bs
  | Page_goto p _ | Page_title p | Page_url p | Page_textContent p _ | Page_query p _
  | Page_queryAll_eval p _ | Page_fill p _ _ | Page_click p _ | Page_check p _
  | Page_uncheck p _ | Page_selectOption p _ _ | Page_screenshot p _ => p = page bs
  | ElementHandle_getProperty _ _ | JSHandle_jsonValue _ => True
  end.

(** The one engine call of the handlers that make a single call on the
    page, as written in each of them. *)
Definition page_call (p : Page) (r : Request) : option PwCall :=
  match r with
  | GoTo call => Some (Page_goto p (goToRequest.getUrl call))
  | GetTitle _ => Some (Page_title p)
  | GetUrl _ => Some (Page_url p)
  | GetTextContent call => Some (Page_textContent p (selectorRequest.getSelector call))
  | GetSelectContent call =>
      Some (Page_queryAll_eval p (selectorRequest.getSelector call ++ " option"))
  | InputText call =>
      Some (Page_fill p (inputTextRequest.getSelector call) (inputTextRequest.getInput call))
  | ClickButton call => Some (Page_click p (selectorRequest.getSelector call))
  | CheckCheckbox call => Some (Page_check p (selectorRequest.getSelector call))
  | UncheckCheckbox call => Some (Page_uncheck p (selectorRequest.getSelector call))
  | SelectOption call =>
      Some (Page_selectOption p (selectOptionRequest.getSelector call)
                              (selectOptionRequest.getMatcherList call))
  | Screenshot call => Some (Page_screenshot p (screenshotRequest.getPath call ++ ".png"))
  | _ => None
  end.

(** The launch [createBrowserState] makes for a browser kind, if any. *)
Definition launch_call (browserType : string) : option PwCall :=
  if browserType =? "firefox" then
    Some (BrowserType_launch firefox (Some {| headless := true |}))
  else if browserType =? "chrome" then
    Some (BrowserType_launch chromium (Some {| headless := true |}))
  else if browserType =? "webkit" then
    Some (BrowserType_launch webkit None)
  else None.

Definition is_OpenBrowser (r : Request) : bool :=
  match r with
  | OpenBrowser _ => true
  | _ => false
  end.

(** The three calls of [createBrowserState]. *)
Definition creation_call (c : PwCall) : bool :=
  match c with
  | BrowserType_launch _ _ | Browser_newContext _ | BrowserContext_newPage _ => true
  | _ => false
  end.

(** ** Properties *)

(** Unfolds a handler down to the engine. *)
Ltac unfold_handler :=
  unfold serve, openBrowser, closeBrowser, goTo, getTitle, getUrl, getTextContent,
    getDomProperty, getBoolProperty, getSelectContent, inputText, clickButton,
    checkCheckbox, uncheckCheckbox, selectOption, health, screenshot,
    createBrowserState, openUrlInPage, exists_, grpc_callback, console_log, field,
    engine, this_browserState, set_browserState, emit, bind, ret, throw,
    outcome, final, events, failure, success, emptyWithLog.

Section ServerFacts.

Variable W : Type.
Variable pw : forall c : PwCall, W -> Outcome (PwResult c) * W.

(** [exists] on an absent object: the error goes to the callback and the
    call returns. *)
Lemma exists_absent {T} (message : string) (s : State W) :
  exists_ (@None T) grpc_callback message s
  = (Return tt, s, [Callback (Some (PwserverError message status.FAILED_PRECONDITION)) None]).
Proof. reflexivity. Qed.

(** A handler that needs the session, run without one: what happens. *)
Lemma serve_without_session (r : Request) (s : State W) :
  requires_session r = true ->
  browserState s = None ->
  outcome (serve pw r s) = Throw (TypeError (first_member_read r))
  /\ final (serve pw r s) = s
  /\ callbacks (events (serve pw r s))
     = [failure (no_session_message r) status.FAILED_PRECONDITION]
  /\ engineCalls (events (serve pw r s)) = [].
Proof.
  intros Hr Hs. destruct s as [bs w]. simpl in Hs. subst bs.
  destruct r; try discriminate Hr; unfold_handler; simpl; auto.
Qed.

(** Steps through the next engine call of the goal, on both of its results. *)
Ltac step_engine :=
  match goal with
  | |- context [pw ?c ?w] => destruct (pw c w) as [[?|?] ?] eqn:?; simpl
  end.

(** C1. Every operation other than OpenBrowser and Health, invoked while no
    session is open, sends exactly one response through the callback: a
    failure with code FAILED_PRECONDITION and the message of that operation;
    and it issues no engine call (the engine is left as it was). *)
Theorem no_session_failed_precondition (r : Request) (s : State W) :
  requires_session r = true ->
  browserState s = None ->
  callbacks (events (serve pw r s))
  = [failure (no_session_message r) status.FAILED_PRECONDITION]
  /\ engineCalls (events (serve pw r s)) = []
  /\ world (final (serve pw r s)) = world s.
Proof.
  intros Hr Hs.
  destruct (serve_without_session r s Hr Hs) as (_ & Hfinal & Hcb & Hcalls).
  rewrite Hfinal. auto.
Qed.

(** C10. [exists] sends the FAILED_PRECONDITION error through the callback
    and then returns normally; so every handler that checks the session,
    invoked with none open, goes on after the error response was sent and
    reads a member of the absent session ([browser] in CloseBrowser, [page]
    in the others), which throws a TypeError. *)
Theorem exists_returns_and_handler_dereferences (r : Request) (s : State W) :
  requires_session r = true ->
  browserState s = None ->
  exists_ (browserState s) grpc_callback (no_session_message r) s
  = (Return tt, s,
     [Callback (Some (PwserverError (no_session_message r) status.FAILED_PRECONDITION))
               None])
  /\ callbacks (events (serve pw r s))
     = [failure (no_session_message r) status.FAILED_PRECONDITION]
  /\ outcome (serve pw r s) = Throw (TypeError (first_member_read r)).
Proof.
  intros Hr Hs.
  destruct (serve_without_session r s Hr Hs) as (Hout & _ & Hcb & _).
  rewrite Hs. split; [apply exists_absent | auto].
Qed.

(** C2 (amended). An OpenBrowser call whose kind is none of chrome, firefox,
    webkit throws a plain Error with the message "unsupported browser",
    which carries no status code; the callback is never invoked, no engine
    call (so no launch) is made and the server state is unchanged. *)
Theorem openBrowser_unsupported_kind (kind url : string) (s : State W) :
  kind <> "chrome" -> kind <> "firefox" -> kind <> "webkit" ->
  let r := serve pw (OpenBrowser (openBrowserRequest.make kind url)) s in
  outcome r = Throw (Error "unsupported browser")
  /\ error_code (Error "unsupported browser") = None
  /\ callbacks (events r) = []
  /\ engineCalls (events r) = []
  /\ final r = s.
Proof.
  intros Hc Hf Hw.
  apply String.eqb_neq in Hc, Hf, Hw.
  unfold_handler. simpl. rewrite Hf, Hc, Hw. simpl.
  destruct s; auto.
Qed.

(** C3 (amended). A CloseBrowser call made while a session is open calls
    the engine's close on the session's browser.  If that succeeds, the
    stored session is cleared and the acknowledgement "Closed browser" is
    sent.  If it fails, the handler stops with the engine's error: the
    stored session stays in place and no response is sent. *)
Theorem closeBrowser_clears_after_release (s : State W) (bs : BrowserState) :
  browserState s = Some bs ->
  let r := serve pw (CloseBrowser new_Empty) s in
  engineCalls (events r) = [Browser_close (browser bs)]
  /\ (forall w', pw (Browser_close (browser bs)) (world s) = (Return tt, w') ->
       outcome r = Return tt
       /\ final r = mkState None w'
       /\ callbacks (events r) = [success (Response_Empty "Closed browser")])
  /\ (forall e w', pw (Browser_close (browser bs)) (world s) = (Throw e, w') ->
       outcome r = Throw e
       /\ final r = mkState (Some bs) w'
       /\ callbacks (events r) = []).
Proof.
  intros Hs. destruct s as [obs w]. simpl in Hs. subst obs.
  unfold_handler. simpl.
  split; [step_engine; reflexivity |].
  split; [intros w' Hclose | intros e w' Hclose]; rewrite Hclose; simpl; auto.
Qed.

(** [openBrowser], split at the session creation and at the navigation. *)
Lemma openBrowser_run (kind url : string) (s : State W) :
  serve pw (OpenBrowser (openBrowserRequest.make kind url)) s
  = match createBrowserState pw kind s with
    | (Throw e, s1, t1) => (Throw e, s1, Log ("Open browser: " ++ kind) :: t1)
    | (Return bs, s1, t1) =>
        if url =? "" then
          (Return tt, mkState (Some bs) (world s1),
           Log ("Open browser: " ++ kind)
           :: (t1 ++ [Log "Browser opened"; Callback None (Some (Response_Empty ""))])%list)
        else
          match pw (Page_goto (page bs) url) (world s1) with
          | (Return _, w2) =>
              (Return tt, mkState (Some bs) w2,
               Log ("Open browser: " ++ kind)
               :: (t1 ++ [Log ("Go to url" ++ url); Engine (Page_goto (page bs) url);
                          Log "Browser opened";
                          Callback None
                            (Some (Response_Empty ("Succesfully opened URL " ++ url)))])%list)
          | (Throw e, w2) =>
              (Throw e, mkState (Some bs) w2,
               Log ("Open browser: " ++ kind)
               :: (t1 ++ [Log ("Go to url" ++ url); Engine (Page_goto (page bs) url)])%list)
          end
    end.
Proof.
  unfold serve, openBrowser, bind, console_log, emit. simpl.
  destruct (createBrowserState pw kind s) as [[[bs|e] s1] t1]; [| reflexivity].
  unfold set_browserState. simpl.
  destruct (url =? ""); simpl; [reflexivity |].
  unfold openUrlInPage, this_browserState, field, engine, bind, console_log, emit, ret.
  simpl.
  destruct (pw (Page_goto (page bs) url) (world s1)) as [[[]|e] w2]; reflexivity.
Qed.

Lemma engineCalls_app (t1 t2 : list Event) :
  engineCalls (t1 ++ t2) = (engineCalls t1 ++ engineCalls t2)%list.
Proof.
  induction t1 as [|ev t1 IH]; simpl; [reflexivity |].
  destruct ev; simpl; rewrite IH; reflexivity.
Qed.

Lemma callbacks_app (t1 t2 : list Event) :
  callbacks (t1 ++ t2) = (callbacks t1 ++ callbacks t2)%list.
Proof.
  induction t1 as [|ev t1 IH]; simpl; [reflexivity |].
  destruct ev; simpl; rewrite IH; reflexivity.
Qed.

(** Session creation launches, opens a context and opens a page; it closes
    nothing and does not touch the stored session. *)
Lemma createBrowserState_frame (kind : string) (s : State W) :
  (forall b, ~ In (Browser_close b) (engineCalls (events (createBrowserState pw kind s))))
  /\ browserState (final (createBrowserState pw kind s)) = browserState s.
Proof.
  unfold createBrowserState, engine, bind, ret, throw, events, final.
  destruct (kind =? "firefox"); [| destruct (kind =? "chrome"); [| destruct (kind =? "webkit")]];
    simpl; repeat step_engine;
    (split; [intros b Hin; simpl in Hin; intuition discriminate | reflexivity]).
Qed.

(** C4. An OpenBrowser call with a supported kind and a non-empty URL, whose
    browser, context and page are created but whose navigation then fails:
    the new session is stored all the same; the handler stops with the
    navigation error and sends no response. *)
Theorem openBrowser_keeps_session_when_navigation_fails
    (kind url : string) (s s1 : State W) (bs : BrowserState) (t1 : list Event)
    (e : JsError) (w2 : W) :
  kind = "chrome" \/ kind = "firefox" \/ kind = "webkit" ->
  url <> "" ->
  createBrowserState pw kind s = (Return bs, s1, t1) ->
  pw (Page_goto (page bs) url) (world s1) = (Throw e, w2) ->
  browserState (final (serve pw (OpenBrowser (openBrowserRequest.make kind url)) s))
  = Some bs
  /\ outcome (serve pw (OpenBrowser (openBrowserRequest.make kind url)) s) = Throw e.
Proof.
  intros _ Hurl Hcreate Hgoto.
  apply String.eqb_neq in Hurl.
  rewrite openBrowser_run, Hcreate, Hurl, Hgoto. split; reflexivity.
Qed.

(** C6. An OpenBrowser call with a supported kind that arrives while a
    session is open never calls the engine's close, on the previous
    session's browser or on any other; and once the new browser, context and
    page are created, the stored session is the new one (whatever the
    navigation does).  Only when the creation itself fails is there no new
    session, and the previous one stays. *)
Theorem openBrowser_replaces_without_closing
    (kind url : string) (s : State W) (old : BrowserState) :
  browserState s = Some old ->
  kind = "chrome" \/ kind = "firefox" \/ kind = "webkit" ->
  (forall b, ~ In (Browser_close b)
                 (engineCalls
                    (events (serve pw (OpenBrowser (openBrowserRequest.make kind url)) s))))
  /\ (forall bs s1 t1,
        createBrowserState pw kind s = (Return bs, s1, t1) ->
        browserState (final (serve pw (OpenBrowser (openBrowserRequest.make kind url)) s))
        = Some bs)
  /\ (forall e s1 t1,
        createBrowserState pw kind s = (Throw e, s1, t1) ->
        browserState (final (serve pw (OpenBrowser (openBrowserRequest.make kind url)) s))
        = Some old).
Proof.
  intros Hold _.
  destruct (createBrowserState_frame kind s) as [Hno Hkeep].
  rewrite openBrowser_run.
  destruct (createBrowserState pw kind s) as [[[bs|e] s1] t1] eqn:Hcreate;
    unfold events, final in *; simpl in *.
  - split; [| split; intros x s1' t1' Heq; [| discriminate Heq]].
    + intros b.
      destruct (url =? "");
        [| destruct (pw (Page_goto (page bs) url) (world s1)) as [[[]|e] w2]];
        simpl; rewrite engineCalls_app; simpl; rewrite in_app_iff; simpl;
        intros [Hin | Hin]; try (apply (Hno b Hin)); intuition discriminate.
    + injection Heq as Hbs Hs1 Ht1. subst x s1' t1'.
      destruct (url =? "");
        [| destruct (pw (Page_goto (page bs) url) (world s1)) as [[[]|e] w2]];
        reflexivity.
  - split; [| split; intros x s1' t1' Heq; [discriminate Heq |]].
    + intros b Hin. apply (Hno b Hin).
    + rewrite Hkeep. exact Hold.
Qed.

(** The rendering of a list of strings in a template literal is the list
    joined with commas: every element, in order. *)
Lemma join_comma_concat (l : list string) : join_comma l = String.concat "," l.
Proof.
  induction l as [|v rest IH]; [reflexivity |].
  simpl. rewrite IH. destruct rest; reflexivity.
Qed.

(** [selectOption] on an open session, split at the engine call. *)
Lemma selectOption_run (call : selectOptionRequest.t) (s : State W) (bs : BrowserState) :
  browserState s = Some bs ->
  serve pw (SelectOption call) s
  = let selector := selectOptionRequest.getSelector call in
    let matcher := selectOptionRequest.getMatcherList call in
    let started :=
      [Log ("Selecting from element " ++ selector ++ " options " ++ join_comma matcher);
       Engine (selectOption_call bs call)] in
    match pw (selectOption_call bs call) (world s) with
    | (Throw e, w') => (Throw e, mkState (Some bs) w', started)
    | (Return result, w') =>
        (Return tt, mkState (Some bs) w',
         started
         ++ (if (length result =? 0)%nat
             then [Log "Couldn't select any options";
                   Callback (Some (PwserverError (no_options_matched call) status.NOT_FOUND))
                            None]
             else [])
         ++ [Callback None
               (Some (Response_Empty ("Selected options " ++ join_comma result
                                      ++ " in element " ++ selector)))])%list
    end.
Proof.
  intros Hs. destruct s as [obs w]. simpl in Hs. subst obs.
  unfold_handler. unfold selectOption_call, no_options_matched. simpl.
  step_engine; [| reflexivity].
  destruct (length _ =? 0)%nat; reflexivity.
Qed.

(** C5. A SelectOption call on an open session first calls the engine's
    select operation: the events of the run start with the log line and that
    call, and no other engine call follows.  A NOT_FOUND failure is sent
    through the callback if and only if that call resolved to an empty list,
    and its message then names the matchers: it is "No options matched "
    followed by all the matchers of the request, in order, separated by
    commas; it comes after the engine call.  When the call resolves to a
    non-empty list, the handler returns with a success acknowledgement that
    lists the selected values: all of them, in order, separated by commas,
    between "Selected options " and " in element " with the selector. *)
Theorem selectOption_reports_after_engine_call
    (call : selectOptionRequest.t) (s : State W) (bs : BrowserState) :
  browserState s = Some bs ->
  (exists text rest,
      events (serve pw (SelectOption call) s)
      = Log text :: Engine (selectOption_call bs call) :: rest
      /\ engineCalls rest = [])
  /\ (forall message,
        In (failure message status.NOT_FOUND)
           (callbacks (events (serve pw (SelectOption call) s)))
        <-> message
            = "No options matched "
              ++ String.concat "," (selectOptionRequest.getMatcherList call)
            /\ exists w', pw (selectOption_call bs call) (world s) = (Return [], w'))
  /\ (forall result w',
        pw (selectOption_call bs call) (world s) = (Return result, w') ->
        result <> [] ->
        outcome (serve pw (SelectOption call) s) = Return tt
        /\ callbacks (events (serve pw (SelectOption call) s))
           = [success (Response_Empty
                         ("Selected options " ++ String.concat "," result
                          ++ " in element " ++ selectOptionRequest.getSelector call))]).
Proof.
  intros Hs. rewrite (selectOption_run call s bs Hs).
  unfold events, outcome, failure, success, no_options_matched. simpl.
  rewrite (join_comma_concat (selectOptionRequest.getMatcherList call)).
  destruct (pw (selectOption_call bs call) (world s)) as [[result|e] w'] eqn:Hcall; simpl.
  - rewrite (join_comma_concat result).
    destruct result as [|v result]; simpl.
    + split; [eexists; eexists; split; reflexivity |].
      split.
      * intros message. split.
        -- intros [Heq | [Heq | []]]; inversion Heq. split; [reflexivity | eauto].
        -- intros [-> _]. left. reflexivity.
      * intros result w2 Heq Hne. inversion Heq. subst result. contradiction.
    + split; [eexists; eexists; split; reflexivity |].
      split.
      * intros message. split.
        -- intros [Heq | []]. inversion Heq.
        -- intros [_ [w2 Heq]]. inversion Heq.
      * intros result' w2 Heq Hne. inversion Heq. subst. split; reflexivity.
  - split; [eexists; eexists; split; reflexivity |].
    split.
    + intros message. split.
      * intros [].
      * intros [_ [w2 Heq]]. inversion Heq.
    + intros result w2 Heq. inversion Heq.
Qed.

(** C9. A SelectOption call on an open session whose engine call resolves
    to an empty list invokes the callback twice: first with the NOT_FOUND
    error and then, the error branch having no return, with a success
    acknowledgement. *)
Theorem selectOption_empty_result_calls_back_twice
    (call : selectOptionRequest.t) (s : State W) (bs : BrowserState) (w' : W) :
  browserState s = Some bs ->
  pw (selectOption_call bs call) (world s) = (Return [], w') ->
  callbacks (events (serve pw (SelectOption call) s))
  = [failure (no_options_matched call) status.NOT_FOUND;
     success (Response_Empty ("Selected options " ++ "" ++ " in element "
                              ++ selectOptionRequest.getSelector call))]
  /\ outcome (serve pw (SelectOption call) s) = Return tt.
Proof.
  intros Hs Hcall. rewrite (selectOption_run call s bs Hs). simpl.
  rewrite Hcall. split; reflexivity.
Qed.

(** [getDomProperty] and [getBoolProperty] on an open session whose page has
    no element for the selector: the lookup is the only engine call, its
    failure is the only response, and the handler then reads [getProperty]
    of the absent element. *)
Lemma property_of_missing_element
    (call : getDomPropertyRequest.t) (s : State W) (bs : BrowserState) (w' : W) :
  browserState s = Some bs ->
  pw (Page_query (page bs) (getDomPropertyRequest.getSelector call)) (world s)
  = (Return None, w') ->
  let missing :=
    [Engine (Page_query (page bs) (getDomPropertyRequest.getSelector call));
     Callback (Some (PwserverError
                       ("Couldn't find element: " ++ getDomPropertyRequest.getSelector call)
                       status.FAILED_PRECONDITION))
              None] in
  serve pw (GetDomProperty call) s
  = (Throw (TypeError "getProperty"), mkState (Some bs) w', missing)
  /\ serve pw (GetBoolProperty call) s
     = (Throw (TypeError "getProperty"), mkState (Some bs) w', missing).
Proof.
  intros Hs Hquery. destruct s as [obs w]. simpl in Hs, Hquery. subst obs.
  unfold_handler. simpl. rewrite Hquery. simpl. split; reflexivity.
Qed.

(** The two failure messages of the property handlers never coincide. *)
Lemma property_messages_differ (selector : string) :
  "Tried to get DOM property, no open browser" <> "Couldn't find element: " ++ selector.
Proof. simpl. discriminate. Qed.

(** C7. GetDomProperty and GetBoolProperty fail with FAILED_PRECONDITION in
    both failure cases, with different messages: without a session the
    message says that no browser is open; with a session whose page has no
    element for the selector, it is "Couldn't find element: " followed by
    the selector. *)
Theorem property_handlers_fail_distinctly
    (call : getDomPropertyRequest.t) (closed opened : State W)
    (bs : BrowserState) (w' : W) :
  browserState closed = None ->
  browserState opened = Some bs ->
  pw (Page_query (page bs) (getDomPropertyRequest.getSelector call)) (world opened)
  = (Return None, w') ->
  let no_browser := "Tried to get DOM property, no open browser" in
  let no_element := "Couldn't find element: " ++ getDomPropertyRequest.getSelector call in
  callbacks (events (serve pw (GetDomProperty call) closed))
  = [failure no_browser status.FAILED_PRECONDITION]
  /\ callbacks (events (serve pw (GetBoolProperty call) closed))
     = [failure no_browser status.FAILED_PRECONDITION]
  /\ callbacks (events (serve pw (GetDomProperty call) opened))
     = [failure no_element status.FAILED_PRECONDITION]
  /\ callbacks (events (serve pw (GetBoolProperty call) opened))
     = [failure no_element status.FAILED_PRECONDITION]
  /\ no_browser <> no_element.
Proof.
  intros Hclosed Hopened Hquery no_browser no_element.
  destruct (serve_without_session (GetDomProperty call) closed eq_refl Hclosed)
    as (_ & _ & Hdom & _).
  destruct (serve_without_session (GetBoolProperty call) closed eq_refl Hclosed)
    as (_ & _ & Hbool & _).
  destruct (property_of_missing_element call opened bs w' Hopened Hquery) as [Hd Hb].
  rewrite Hdom, Hbool, Hd, Hb.
  repeat split. apply property_messages_differ.
Qed.

(** The [forEach] of [getSelectContent] appends one entry per option, in
    order. *)
Lemma addEntry_fold (elements : list OptionElement) (entryList : list SelectEntry) :
  fold_left addEntry (map option_triple elements) entryList
  = (entryList ++ map entry_of elements)%list.
Proof.
  revert entryList.
  induction elements as [|element elements IH]; intros entryList; simpl.
  - symmetry. apply app_nil_r.
  - rewrite IH. rewrite <- app_assoc. simpl.
    unfold entry_of, empty_string_loose_neq, toNumber_bool, toNumber_string_empty.
    destruct (selected element); reflexivity.
Qed.

(** C8. A GetSelectContent call on an open session whose option enumeration
    resolves to a list of options answers with exactly one entry per option,
    in the same order, each with the label, the value and the selected flag
    of its option. *)
Theorem getSelectContent_entries_in_order
    (call : selectorRequest.t) (s : State W) (bs : BrowserState)
    (elements : list OptionElement) (w' : W) :
  browserState s = Some bs ->
  pw (Page_queryAll_eval (page bs) (selectorRequest.getSelector call ++ " option")) (world s)
  = (Return elements, w') ->
  callbacks (events (serve pw (GetSelectContent call) s))
  = [success (Response_Select (map entry_of elements))]
  /\ outcome (serve pw (GetSelectContent call) s) = Return tt.
Proof.
  intros Hs Henum. destruct s as [obs w]. simpl in Hs, Henum. subst obs.
  unfold_handler. simpl. rewrite Henum. simpl.
  rewrite addEntry_fold. split; reflexivity.
Qed.

End ServerFacts.

(** ** The properties on the scripted engine *)

(** C1 on ClickButton at startup: the message of the operation, no engine
    call. *)
Lemma no_session_failed_precondition_witness :
  requires_session (ClickButton (selectorRequest.make "#go")) = true
  /\ browserState Demo.startup = None
  /\ callbacks (events (serve Demo.pw (ClickButton (selectorRequest.make "#go")) Demo.startup))
     = [failure "Tried to click button, no open browser" status.FAILED_PRECONDITION]
  /\ engineCalls (events (serve Demo.pw (ClickButton (selectorRequest.make "#go"))
                                Demo.startup)) = []
  /\ world (final (serve Demo.pw (ClickButton (selectorRequest.make "#go")) Demo.startup))
     = world Demo.startup.
Proof.
  split; [reflexivity |]. split; [reflexivity |].
  exact (no_session_failed_precondition Demo.World Demo.pw
           (ClickButton (selectorRequest.make "#go")) Demo.startup eq_refl eq_refl).
Defined.

(** C10 on CloseBrowser at startup: [exists] returns, then the handler reads
    [browser] of the absent session. *)
Lemma exists_returns_and_handler_dereferences_witness :
  requires_session (CloseBrowser new_Empty) = true
  /\ browserState Demo.startup = None
  /\ exists_ (browserState Demo.startup) grpc_callback
             "Tried to close browser but none was open" Demo.startup
     = (Return tt, Demo.startup,
        [Callback (Some (PwserverError "Tried to close browser but none was open"
                                       status.FAILED_PRECONDITION)) None])
  /\ callbacks (events (serve Demo.pw (CloseBrowser new_Empty) Demo.startup))
     = [failure "Tried to close browser but none was open" status.FAILED_PRECONDITION]
  /\ outcome (serve Demo.pw (CloseBrowser new_Empty) Demo.startup)
     = Throw (TypeError "browser").
Proof.
  split; [reflexivity |]. split; [reflexivity |].
  exact (exists_returns_and_handler_dereferences Demo.World Demo.pw
           (CloseBrowser new_Empty) Demo.startup eq_refl eq_refl).
Defined.

(** C2 as stated fails: OpenBrowser with the kind "opera" sends no error of
    code INVALID_ARGUMENT, neither through the callback nor as the error the
    handler throws. *)
Lemma openBrowser_unsupported_kind_not_invalid_argument :
  "opera" <> "chrome" /\ "opera" <> "firefox" /\ "opera" <> "webkit"
  /\ ~ fails_with_code status.INVALID_ARGUMENT
         (serve Demo.pw (OpenBrowser (openBrowserRequest.make "opera" "")) Demo.startup).
Proof.
  repeat (split; [discriminate |]).
  intros [[e [Hin _]] | [e [Hthrow Hcode]]].
  - exact Hin.
  - inversion Hthrow. subst e. discriminate Hcode.
Qed.

Lemma openBrowser_unsupported_kind_witness :
  "opera" <> "chrome" /\ "opera" <> "firefox" /\ "opera" <> "webkit"
  /\ outcome (serve Demo.pw (OpenBrowser (openBrowserRequest.make "opera" "")) Demo.startup)
     = Throw (Error "unsupported browser")
  /\ callbacks (events (serve Demo.pw (OpenBrowser (openBrowserRequest.make "opera" ""))
                              Demo.startup)) = []
  /\ engineCalls (events (serve Demo.pw (OpenBrowser (openBrowserRequest.make "opera" ""))
                                Demo.startup)) = []
  /\ final (serve Demo.pw (OpenBrowser (openBrowserRequest.make "opera" "")) Demo.startup)
     = Demo.startup.
Proof.
  repeat (split; [discriminate |]).
  destruct (openBrowser_unsupported_kind Demo.World Demo.pw "opera" "" Demo.startup)
    as (Hout & _ & Hcb & Hcalls & Hfinal); [discriminate | discriminate | discriminate |].
  exact (conj Hout (conj Hcb (conj Hcalls Hfinal))).
Defined.

(** C3 as stated fails: when the engine rejects the close, the session is
    still stored after CloseBrowser. *)
Lemma closeBrowser_failed_release_keeps_session :
  browserState Demo.opened_offline = Some Demo.session
  /\ outcome (serve Demo.pw (CloseBrowser new_Empty) Demo.opened_offline)
     = Throw (EngineError "Browser has been closed")
  /\ browserState (final (serve Demo.pw (CloseBrowser new_Empty) Demo.opened_offline))
     <> None.
Proof.
  split; [reflexivity |]. split; [reflexivity |]. discriminate.
Qed.

Lemma closeBrowser_clears_after_release_witness :
  browserState Demo.opened = Some Demo.session
  /\ final (serve Demo.pw (CloseBrowser new_Empty) Demo.opened)
     = mkState None (world Demo.opened)
  /\ callbacks (events (serve Demo.pw (CloseBrowser new_Empty) Demo.opened))
     = [success (Response_Empty "Closed browser")].
Proof.
  split; [reflexivity |].
  destruct (closeBrowser_clears_after_release Demo.World Demo.pw Demo.opened Demo.session
              eq_refl) as (_ & Hok & _).
  destruct (Hok (world Demo.opened) eq_refl) as (_ & Hfinal & Hcb).
  exact (conj Hfinal Hcb).
Defined.

(** C4 on the scripted engine: chrome is launched, the navigation to an
    unreachable host fails, the session is stored. *)
Lemma openBrowser_keeps_session_when_navigation_fails_witness :
  "http://unreachable.invalid" <> ""
  /\ browserState
       (final (serve Demo.pw
                 (OpenBrowser (openBrowserRequest.make "chrome" "http://unreachable.invalid"))
                 Demo.startup))
     = Some Demo.session
  /\ outcome (serve Demo.pw
                (OpenBrowser (openBrowserRequest.make "chrome" "http://unreachable.invalid"))
                Demo.startup)
     = Throw (EngineError "net::ERR_NAME_NOT_RESOLVED").
Proof.
  split; [discriminate |].
  eapply (openBrowser_keeps_session_when_navigation_fails Demo.World Demo.pw
            "chrome" "http://unreachable.invalid" Demo.startup).
  - left. reflexivity.
  - discriminate.
  - reflexivity.
  - reflexivity.
Defined.

(** C6 on the scripted engine: firefox opened over an open session. *)
Lemma openBrowser_replaces_without_closing_witness :
  browserState Demo.opened = Some Demo.session
  /\ ~ In (Browser_close (browser Demo.session))
          (engineCalls
             (events (serve Demo.pw (OpenBrowser (openBrowserRequest.make "firefox" ""))
                            Demo.opened)))
  /\ browserState
       (final (serve Demo.pw (OpenBrowser (openBrowserRequest.make "firefox" ""))
                     Demo.opened))
     = Some (new_BrowserState (MkBrowser 3) (MkBrowserContext 4) (MkPage 5)).
Proof.
  split; [reflexivity |].
  destruct (openBrowser_replaces_without_closing Demo.World Demo.pw "firefox" ""
              Demo.opened Demo.session eq_refl (or_intror (or_introl eq_refl)))
    as (Hno & Hnew & _).
  split; [apply Hno |].
  eapply Hnew. reflexivity.
Defined.

(** C5 on the scripted engine, with two matchers each time.  No option of
    the select has the value x or y: the NOT_FOUND message names both.  The
    options a and b are both there: the acknowledgement lists both. *)
Lemma selectOption_reports_after_engine_call_witness :
  browserState Demo.opened = Some Demo.session
  /\ In (failure "No options matched x,y" status.NOT_FOUND)
        (callbacks
           (events (serve Demo.pw
                      (SelectOption (selectOptionRequest.make "select" ["x"; "y"]))
                      Demo.opened)))
  /\ callbacks
       (events (serve Demo.pw
                  (SelectOption (selectOptionRequest.make "select" ["a"; "b"]))
                  Demo.opened))
     = [success (Response_Empty "Selected options a,b in element select")].
Proof.
  split; [reflexivity |]. split.
  - destruct (selectOption_reports_after_engine_call Demo.World Demo.pw
                (selectOptionRequest.make "select" ["x"; "y"])
                Demo.opened Demo.session eq_refl) as (_ & Hiff & _).
    apply Hiff. split; [reflexivity |].
    exists (world Demo.opened). reflexivity.
  - destruct (selectOption_reports_after_engine_call Demo.World Demo.pw
                (selectOptionRequest.make "select" ["a"; "b"])
                Demo.opened Demo.session eq_refl) as (_ & _ & Hack).
    destruct (Hack ["a"; "b"] (world Demo.opened) eq_refl) as [_ Hcb];
      [discriminate | exact Hcb].
Defined.

(** C9 on the scripted engine: the same call answers twice. *)
Lemma selectOption_empty_result_calls_back_twice_witness :
  browserState Demo.opened = Some Demo.session
  /\ callbacks
       (events (serve Demo.pw
                  (SelectOption (selectOptionRequest.make "select" ["nonexistent-value"]))
                  Demo.opened))
     = [failure "No options matched nonexistent-value" status.NOT_FOUND;
        success (Response_Empty "Selected options  in element select")]
  /\ outcome (serve Demo.pw
                (SelectOption (selectOptionRequest.make "select" ["nonexistent-value"]))
                Demo.opened)
     = Return tt.
Proof.
  split; [reflexivity |].
  exact (selectOption_empty_result_calls_back_twice Demo.World Demo.pw
           (selectOptionRequest.make "select" ["nonexistent-value"])
           Demo.opened Demo.session (world Demo.opened) eq_refl eq_refl).
Defined.

(** C7 on the scripted engine: no session at startup, no element for
    [#missing] on the open page. *)
Lemma property_handlers_fail_distinctly_witness :
  browserState Demo.startup = None
  /\ browserState Demo.opened = Some Demo.session
  /\ callbacks (events (serve Demo.pw
                          (GetDomProperty (getDomPropertyRequest.make "#missing" "checked"))
                          Demo.startup))
     = [failure "Tried to get DOM property, no open browser" status.FAILED_PRECONDITION]
  /\ callbacks (events (serve Demo.pw
                          (GetBoolProperty (getDomPropertyRequest.make "#missing" "checked"))
                          Demo.startup))
     = [failure "Tried to get DOM property, no open browser" status.FAILED_PRECONDITION]
  /\ callbacks (events (serve Demo.pw
                          (GetDomProperty (getDomPropertyRequest.make "#missing" "checked"))
                          Demo.opened))
     = [failure "Couldn't find element: #missing" status.FAILED_PRECONDITION]
  /\ callbacks (events (serve Demo.pw
                          (GetBoolProperty (getDomPropertyRequest.make "#missing" "checked"))
                          Demo.opened))
     = [failure "Couldn't find element: #missing" status.FAILED_PRECONDITION]
  /\ "Tried to get DOM property, no open browser" <> "Couldn't find element: #missing".
Proof.
  split; [reflexivity |]. split; [reflexivity |].
  exact (property_handlers_fail_distinctly Demo.World Demo.pw
           (getDomPropertyRequest.make "#missing" "checked")
           Demo.startup Demo.opened Demo.session (world Demo.opened)
           eq_refl eq_refl eq_refl).
Defined.

(** C8 on the scripted engine: the select with the options A/a (selected)
    and B/b gives exactly these two entries, in this order. *)
Lemma getSelectContent_entries_in_order_witness :
  browserState Demo.opened = Some Demo.session
  /\ callbacks (events (serve Demo.pw (GetSelectContent (selectorRequest.make "select"))
                              Demo.opened))
     = [success (Response_Select [new_SelectEntry "A" "a" true;
                                  new_SelectEntry "B" "b" false])]
  /\ outcome (serve Demo.pw (GetSelectContent (selectorRequest.make "select")) Demo.opened)
     = Return tt.
Proof.
  split; [reflexivity |].
  exact (getSelectContent_entries_in_order Demo.World Demo.pw
           (selectorRequest.make "select") Demo.opened Demo.session
           Demo.options (world Demo.opened) eq_refl eq_refl).
Defined.

(** ** Runs on the scripted engine *)

(** Health answers "OK" with or without a session, and calls no engine. *)
Example health_run :
  serve Demo.pw (Health new_Empty) Demo.startup
  = (Return tt, Demo.startup, [Callback None (Some (Response_String (JString "OK")))]).
Proof. reflexivity. Qed.

(** Opening chrome at startup stores the session built from the three
    handles the engine gave. *)
Example openBrowser_run_at_startup :
  final (serve Demo.pw (OpenBrowser (openBrowserRequest.make "chrome" "")) Demo.startup)
  = Demo.opened.
Proof. reflexivity. Qed.

(** Closing it again succeeds and clears the session; a second close then
    fails with FAILED_PRECONDITION. *)
Example closeBrowser_twice :
  let closed := final (serve Demo.pw (CloseBrowser new_Empty) Demo.opened) in
  browserState closed = None
  /\ callbacks (events (serve Demo.pw (CloseBrowser new_Empty) closed))
     = [failure "Tried to close browser but none was open" status.FAILED_PRECONDITION].
Proof. split; reflexivity. Qed.

(** ** Invariants of all handlers *)

Section ServerInvariants.

Variable W : Type.
Variable pw : forall c : PwCall, W -> Outcome (PwResult c) * W.

(** Runs a handler on every branch the engine and the request can take. *)
Ltac all_branches :=
  repeat match goal with
         | |- context [pw ?c ?w] => destruct (pw c w) as [[?|?] ?]; simpl
         | |- context [if ?b then _ else _] => destruct b; simpl
         | |- context [match ?x with _ => _ end] => destruct x; simpl
         end.

Ltac all_runs r s :=
  destruct s as [[?|] ?]; destruct r; unfold_handler; simpl; all_branches.

(** Every invocation of the callback, by any handler in any run, passes
    either an error and no response or a response and no error. *)
Theorem callback_gets_error_or_response (r : Request) (s : State W) :
  forallb one_sided (callbacks (events (serve pw r s))) = true.
Proof. all_runs r s; reflexivity. Qed.

(** Every error a handler sends through the callback is a PwserverError
    with the code FAILED_PRECONDITION, or NOT_FOUND in SelectOption: no
    other status code (INVALID_ARGUMENT among them) is ever sent. *)
Theorem callback_error_codes (r : Request) (s : State W) :
  forallb (code_allowed r) (callbacks (events (serve pw r s))) = true.
Proof. all_runs r s; reflexivity. Qed.

(** Every response a handler sends is of the message type declared for its
    operation: Empty for the acknowledged actions, String for title, URL,
    text, DOM property and health, Bool for GetBoolProperty, Select for
    GetSelectContent. *)
Theorem callback_response_types (r : Request) (s : State W) :
  forallb (response_allowed r) (callbacks (events (serve pw r s))) = true.
Proof. all_runs r s; reflexivity. Qed.

Lemma quiet_after_callback_all (r : Request) (s : State W) :
  quiet_after_callback (events (serve pw r s)) = true.
Proof. all_runs r s; reflexivity. Qed.

Lemma quiet_after_callback_split (t pre post : list Event)
    (err : option JsError) (resp : option Response) :
  quiet_after_callback t = true ->
  t = (pre ++ Callback err resp :: post)%list ->
  engineCalls post = [].
Proof.
  intros Hquiet ->. induction pre as [|ev pre IH]; simpl in Hquiet.
  - destruct (engineCalls post); [reflexivity | discriminate].
  - destruct ev; auto.
    destruct (engineCalls (pre ++ Callback err resp :: post)); [auto | discriminate].
Qed.

(** Once a handler has invoked the callback, it makes no further engine
    call in that run: whatever follows a response (the fall-through after a
    failed [exists], the second callback of SelectOption) never reaches the
    browser. *)
Theorem no_engine_call_after_callback
    (r : Request) (s : State W) (pre post : list Event)
    (err : option JsError) (resp : option Response) :
  events (serve pw r s) = (pre ++ Callback err resp :: post)%list ->
  engineCalls post = [].
Proof.
  intros Hsplit.
  exact (quiet_after_callback_split _ pre post err resp (quiet_after_callback_all r s) Hsplit).
Qed.

(** A handler that returns has sent exactly one success response, as its
    last callback; a handler that throws (a rejected promise) has sent no
    success response. *)
Theorem success_sent_iff_returned (r : Request) (s : State W) :
  answered_as_ended (serve pw r s) = true.
Proof. all_runs r s; reflexivity. Qed.

(** A handler invokes the callback at most once in a run; SelectOption
    alone can invoke it twice. *)
Theorem callback_count (r : Request) (s : State W) :
  length (callbacks (events (serve pw r s))) <= (if is_SelectOption r then 2 else 1).
Proof. all_runs r s; repeat constructor. Qed.

(** Only OpenBrowser and CloseBrowser write the stored session: every
    other handler leaves it as it was, in every run; CloseBrowser leaves it
    or clears it. *)
Theorem session_written_by_open_and_close_only (r : Request) (s : State W) :
  match r with
  | OpenBrowser _ => True
  | CloseBrowser _ =>
      browserState (final (serve pw r s)) = browserState s
      \/ browserState (final (serve pw r s)) = None
  | _ => browserState (final (serve pw r s)) = browserState s
  end.
Proof. all_runs r s; auto. Qed.

(** With a session open, a handler other than OpenBrowser acts on that
    session only: every page call goes to the session's page, a close goes
    to the session's browser, and nothing is launched or created. *)
Theorem engine_calls_on_session (r : Request) (s : State W) (bs : BrowserState) :
  is_OpenBrowser r = false ->
  browserState s = Some bs ->
  Forall (on_session bs) (engineCalls (events (serve pw r s))).
Proof.
  intros Hr Hs. destruct s as [obs w]. simpl in Hs. subst obs.
  destruct r; try discriminate Hr; unfold_handler; simpl; all_branches;
    repeat constructor.
Qed.

(** The handlers with a single page call (GoTo, GetTitle, GetUrl,
    GetTextContent, GetSelectContent, InputText, ClickButton, CheckCheckbox,
    UncheckCheckbox, SelectOption, Screenshot), on an open session: that
    call is the only engine call of the run, whatever the engine answers.
    If the engine rejects it, the handler rejects with the engine's error
    and sends no response at all; if the engine resolves it, the handler
    returns.  The session stays stored in both cases. *)
Theorem single_page_call
    (r : Request) (s : State W) (bs : BrowserState) (c : PwCall) :
  browserState s = Some bs ->
  page_call (page bs) r = Some c ->
  engineCalls (events (serve pw r s)) = [c]
  /\ (forall e w', pw c (world s) = (Throw e, w') ->
       outcome (serve pw r s) = Throw e
       /\ callbacks (events (serve pw r s)) = []
       /\ final (serve pw r s) = mkState (Some bs) w')
  /\ (forall v w', pw c (world s) = (Return v, w') ->
       outcome (serve pw r s) = Return tt
       /\ final (serve pw r s) = mkState (Some bs) w').
Proof.
  intros Hs Hc. destruct s as [obs w]. simpl in Hs. subst obs.
  destruct r; simpl in Hc; try discriminate Hc;
    injection Hc as <-; unfold_handler; simpl;
    (split; [all_branches; reflexivity |]);
    (split; [intros e w' Hcall | intros v w' Hcall]); rewrite Hcall; simpl;
    all_branches; auto.
Qed.

(** Session creation makes creation calls only, and none through the
    callback. *)
Lemma createBrowserState_events (kind : string) (s : State W) :
  forallb creation_call (engineCalls (events (createBrowserState pw kind s))) = true
  /\ callbacks (events (createBrowserState pw kind s)) = [].
Proof.
  unfold createBrowserState, engine, bind, ret, throw, events.
  all_branches; split; reflexivity.
Qed.

(** OpenBrowser launches exactly the browser of its kind: chromium,
    headless, for "chrome"; firefox, headless, for "firefox"; webkit, with
    no launch options, for "webkit"; and nothing for any other kind.  No
    other launch occurs in the run. *)
Theorem openBrowser_launches_its_kind
    (kind url : string) (s : State W) (bt : BrowserTypeName) (opts : option LaunchOptions) :
  In (BrowserType_launch bt opts)
     (engineCalls (events (serve pw (OpenBrowser (openBrowserRequest.make kind url)) s)))
  <-> launch_call kind = Some (BrowserType_launch bt opts).
Proof.
  unfold launch_call. unfold_handler. simpl.
  destruct (kind =? "firefox"); [| destruct (kind =? "chrome"); [| destruct (kind =? "webkit")]];
    simpl; all_branches;
    (split; [ intros Hin; simpl in Hin;
              repeat (destruct Hin as [Hin | Hin]; [try discriminate Hin |]);
              try contradiction; try (injection Hin as <- <-; reflexivity)
            | intros Heq; try discriminate Heq; injection Heq as <- <-; left; reflexivity ]).
Qed.

(** OpenBrowser navigates exactly when the URL is not empty and the
    session was created: the only [goto] of the run is then on the page of
    the new session, with the URL of the request. *)
Theorem openBrowser_navigates_iff_url
    (kind url : string) (s : State W) (p : Page) (u : string) :
  In (Page_goto p u)
     (engineCalls (events (serve pw (OpenBrowser (openBrowserRequest.make kind url)) s)))
  <-> url <> "" /\ u = url
      /\ exists bs s1 t1,
          createBrowserState pw kind s = (Return bs, s1, t1) /\ p = page bs.
Proof.
  destruct (createBrowserState_events kind s) as [Hcreation _].
  rewrite forallb_forall in Hcreation.
  rewrite openBrowser_run.
  destruct (createBrowserState pw kind s) as [[[bs|e] s1] t1] eqn:Hcreate;
    unfold events in *; simpl in *.
  - destruct (url =? "") eqn:Hurl.
    + apply String.eqb_eq in Hurl. simpl. rewrite engineCalls_app, in_app_iff. simpl.
      split.
      * intros [Hin | []]. apply Hcreation in Hin. discriminate Hin.
      * intros [Hne _]. contradiction.
    + apply String.eqb_neq in Hurl.
      destruct (pw (Page_goto (page bs) url) (world s1)) as [[[]|e] w2];
        simpl; rewrite engineCalls_app, in_app_iff; simpl;
        (split;
         [ intros [Hin | [Hin | []]];
           [ apply Hcreation in Hin; discriminate Hin
           | injection Hin as <- <-; repeat split; auto; eauto ]
         | intros (_ & -> & bs' & s1' & t1' & Heq & ->);
           injection Heq as <- _ _; right; left; reflexivity ]).
  - split.
    + intros Hin. apply Hcreation in Hin. discriminate Hin.
    + intros (_ & _ & bs' & s1' & t1' & Heq & _). discriminate Heq.
Qed.

(** When the creation of the session fails at any of its three steps,
    OpenBrowser rejects with that error, sends no response, and leaves the
    stored session (if any) as it was; a browser that was already launched
    is not closed. *)
Theorem openBrowser_creation_failure
    (kind url : string) (s s1 : State W) (e : JsError) (t1 : list Event) :
  createBrowserState pw kind s = (Throw e, s1, t1) ->
  outcome (serve pw (OpenBrowser (openBrowserRequest.make kind url)) s) = Throw e
  /\ callbacks (events (serve pw (OpenBrowser (openBrowserRequest.make kind url)) s)) = []
  /\ browserState (final (serve pw (OpenBrowser (openBrowserRequest.make kind url)) s))
     = browserState s
  /\ forall b,
       ~ In (Browser_close b)
            (engineCalls
               (events (serve pw (OpenBrowser (openBrowserRequest.make kind url)) s))).
Proof.
  intros Hcreate.
  destruct (createBrowserState_frame W pw kind s) as [Hno Hkeep].
  destruct (createBrowserState_events kind s) as [_ Hcb].
  rewrite openBrowser_run. rewrite Hcreate in *.
  unfold outcome, events, final in *. simpl in *.
  repeat split; auto.
Qed.

(** After a CloseBrowser that returned, the session is gone: every
    operation that needs one is answered FAILED_PRECONDITION, with its own
    message, and reaches no engine, until a browser is opened again. *)
Theorem closed_session_rejects_requests (call : Empty) (r : Request) (s : State W) :
  outcome (serve pw (CloseBrowser call) s) = Return tt ->
  requires_session r = true ->
  browserState (final (serve pw (CloseBrowser call) s)) = None
  /\ callbacks (events (serve pw r (final (serve pw (CloseBrowser call) s))))
     = [failure (no_session_message r) status.FAILED_PRECONDITION]
  /\ engineCalls (events (serve pw r (final (serve pw (CloseBrowser call) s)))) = [].
Proof.
  intros Hclosed Hr.
  assert (Hgone : browserState (final (serve pw (CloseBrowser call) s)) = None).
  { revert Hclosed. destruct s as [[bs|] w]; unfold_handler; simpl.
    - destruct (pw (Browser_close (browser bs)) w) as [[[]|e] w']; simpl;
        [reflexivity | discriminate].
    - discriminate. }
  split; [exact Hgone |].
  destruct (serve_without_session W pw r _ Hr Hgone) as (_ & _ & Hcb & Hcalls).
  split; assumption.
Qed.

(** After an OpenBrowser that returned, the session it created is the
    stored one, and the next single-call operation makes its call on the
    page of that session. *)
Theorem opened_session_serves_requests (kind url : string) (s : State W) :
  outcome (serve pw (OpenBrowser (openBrowserRequest.make kind url)) s) = Return tt ->
  exists bs s1 t1,
    createBrowserState pw kind s = (Return bs, s1, t1)
    /\ browserState (final (serve pw (OpenBrowser (openBrowserRequest.make kind url)) s))
       = Some bs
    /\ forall r c,
         page_call (page bs) r = Some c ->
         engineCalls
           (events (serve pw r
                      (final (serve pw (OpenBrowser (openBrowserRequest.make kind url)) s))))
         = [c].
Proof.
  rewrite openBrowser_run.
  destruct (createBrowserState pw kind s) as [[[bs|e] s1] t1]; [| discriminate].
  destruct (url =? "");
    [| destruct (pw (Page_goto (page bs) url) (world s1)) as [[[]|e] w2]];
    intros Hret; try discriminate Hret;
    (exists bs, s1, t1; split; [reflexivity |]; split; [reflexivity |];
     intros r c Hc; destruct r; simpl in Hc; try discriminate Hc;
     injection Hc as <-; unfold_handler; simpl; all_branches; reflexivity).
Qed.

(** GetTextContent on an open session answers with the text the engine
    found, and with the empty string when the engine found no element
    ([null]): a missing element is not an error here. *)
Theorem getTextContent_body
    (call : selectorRequest.t) (s : State W) (bs : BrowserState)
    (content : option string) (w' : W) :
  browserState s = Some bs ->
  pw (Page_textContent (page bs) (selectorRequest.getSelector call)) (world s)
  = (Return content, w') ->
  callbacks (events (serve pw (GetTextContent call) s))
  = [success (Response_String
                (JString match content with Some text => text | None => "" end))].
Proof.
  intros Hs Hcall. destruct s as [obs w]. simpl in Hs, Hcall. subst obs.
  unfold_handler. simpl. rewrite Hcall. simpl.
  unfold toString_or_empty. destruct content as [text|]; [| reflexivity].
  destruct (text =? "") eqn:Htext; [| reflexivity].
  apply String.eqb_eq in Htext. subst text. reflexivity.
Qed.

(** GetDomProperty and GetBoolProperty on an open session, when the element
    is found and its property read: the property is read from the element
    the lookup gave, and its value from the handle that read gave.
    GetDomProperty answers with the value as it is.  GetBoolProperty answers
    with a boolean value as it is, and with [false] for every falsy value
    (undefined, null, 0, the empty string). *)
Theorem property_handlers_answer
    (call : getDomPropertyRequest.t) (s : State W) (bs : BrowserState)
    (element : ElementHandle) (result : JSHandle) (content : JsValue) (w1 w2 w3 : W) :
  browserState s = Some bs ->
  pw (Page_query (page bs) (getDomPropertyRequest.getSelector call)) (world s)
  = (Return (Some element), w1) ->
  pw (ElementHandle_getProperty element (getDomPropertyRequest.getProperty call)) w1
  = (Return result, w2) ->
  pw (JSHandle_jsonValue result) w2 = (Return content, w3) ->
  callbacks (events (serve pw (GetDomProperty call) s))
  = [success (Response_String content)]
  /\ (forall b, content = JBool b ->
       callbacks (events (serve pw (GetBoolProperty call) s))
       = [success (Response_Bool (JBool b))])
  /\ (truthy content = false ->
       callbacks (events (serve pw (GetBoolProperty call) s))
       = [success (Response_Bool (JBool false))])
  /\ engineCalls (events (serve pw (GetDomProperty call) s))
     = [Page_query (page bs) (getDomPropertyRequest.getSelector call);
        ElementHandle_getProperty element (getDomPropertyRequest.getProperty call);
        JSHandle_jsonValue result]
  /\ engineCalls (events (serve pw (GetBoolProperty call) s))
     = engineCalls (events (serve pw (GetDomProperty call) s)).
Proof.
  intros Hs Hquery Hprop Hjson. destruct s as [obs w]. simpl in Hs, Hquery. subst obs.
  unfold_handler. simpl. rewrite Hquery. simpl. rewrite Hprop. simpl.
  rewrite Hjson. simpl.
  split; [reflexivity |].
  split; [intros b ->; destruct b; reflexivity |].
  split; [intros ->; reflexivity |].
  split; reflexivity.
Qed.

(** An OpenBrowser that returns has sent one acknowledgement: with an
    empty log when the request has no URL, and with "Succesfully opened URL "
    and the URL when it has one. *)
Theorem openBrowser_acknowledgement (kind url : string) (s : State W) :
  outcome (serve pw (OpenBrowser (openBrowserRequest.make kind url)) s) = Return tt ->
  callbacks (events (serve pw (OpenBrowser (openBrowserRequest.make kind url)) s))
  = [success (Response_Empty
                (if url =? "" then "" else "Succesfully opened URL " ++ url))].
Proof.
  destruct (createBrowserState_events kind s) as [_ Hcb].
  rewrite openBrowser_run.
  destruct (createBrowserState pw kind s) as [[[bs|e] s1] t1]; [| discriminate].
  unfold events in Hcb. simpl in Hcb.
  destruct (url =? "");
    [| destruct (pw (Page_goto (page bs) url) (world s1)) as [[[]|e] w2]];
    intros Hret; try discriminate Hret;
    unfold events; simpl; rewrite callbacks_app, Hcb; reflexivity.
Qed.

(** A run of a handler other than OpenBrowser keeps the stored session or
    clears it. *)
Lemma run_keeps_or_clears (r : Request) (s : State W) :
  is_OpenBrowser r = false ->
  browserState (final (serve pw r s)) = browserState s
  \/ browserState (final (serve pw r s)) = None.
Proof.
  intros Hr. destruct s as [[?|] ?]; destruct r; try discriminate Hr;
    unfold_handler; simpl; all_branches; auto.
Qed.

(** Until a browser is opened nothing reaches the engine: from a state
    without a session, a sequence of calls with no OpenBrowser among them,
    however long, makes no engine call and leaves the server as it was. *)
Theorem no_engine_call_before_open (rs : list Request) (s : State W) :
  forallb (fun r => negb (is_OpenBrowser r)) rs = true ->
  browserState s = None ->
  engineCalls (snd (serve_all pw rs s)) = []
  /\ fst (serve_all pw rs s) = s.
Proof.
  intros Hrs Hs. induction rs as [|r rs IH]; simpl.
  - split; reflexivity.
  - simpl in Hrs. apply andb_prop in Hrs. destruct Hrs as [Hr Hrs].
    assert (Hrun : engineCalls (events (serve pw r s)) = [] /\ final (serve pw r s) = s).
    { destruct (requires_session r) eqn:Hneeds.
      - destruct (serve_without_session W pw r s Hneeds Hs) as (_ & Hfinal & _ & Hcalls).
        split; assumption.
      - destruct r; try discriminate Hneeds; try discriminate Hr.
        destruct s; split; reflexivity. }
    destruct Hrun as [Hcalls Hfinal].
    rewrite Hfinal, engineCalls_app, Hcalls. simpl. exact (IH Hrs).
Qed.

(** Only OpenBrowser brings a session in: after a sequence of calls with no
    OpenBrowser among them, the stored session is the one stored before, or
    none. *)
Theorem no_new_session_without_open (rs : list Request) (s : State W) :
  forallb (fun r => negb (is_OpenBrowser r)) rs = true ->
  browserState (fst (serve_all pw rs s)) = browserState s
  \/ browserState (fst (serve_all pw rs s)) = None.
Proof.
  revert s. induction rs as [|r rs IH]; intros s Hrs; simpl.
  - left. reflexivity.
  - simpl in Hrs. apply andb_prop in Hrs. destruct Hrs as [Hr Hrs].
    apply Bool.negb_true_iff in Hr.
    destruct (IH (final (serve pw r s)) Hrs) as [Hsame | Hnone]; [| right; exact Hnone].
    rewrite Hsame. exact (run_keeps_or_clears r s Hr).
Qed.

End ServerInvariants.

(** ** The invariants on the scripted engines *)

(** A SelectOption that matches nothing: the engine call comes before both
    callbacks, none after. *)
Lemma no_engine_call_after_callback_witness :
  events (serve Demo.pw (SelectOption (selectOptionRequest.make "select" ["x"])) Demo.opened)
  = ([Log "Selecting from element select options x";
      Engine (Page_selectOption (MkPage 2) "select" ["x"]);
      Log "Couldn't select any options"]
     ++ Callback (Some (PwserverError "No options matched x" status.NOT_FOUND)) None
     :: [Callback None (Some (Response_Empty "Selected options  in element select"))])%list
  /\ engineCalls [Callback None (Some (Response_Empty "Selected options  in element select"))]
     = [].
Proof.
  split; [reflexivity |].
  exact (no_engine_call_after_callback Demo.World Demo.pw
           (SelectOption (selectOptionRequest.make "select" ["x"])) Demo.opened
           [Log "Selecting from element select options x";
            Engine (Page_selectOption (MkPage 2) "select" ["x"]);
            Log "Couldn't select any options"]
           [Callback None (Some (Response_Empty "Selected options  in element select"))]
           (Some (PwserverError "No options matched x" status.NOT_FOUND)) None
           eq_refl).
Defined.

(** The property lookup on the open session goes to its page. *)
Lemma engine_calls_on_session_witness :
  browserState Demo.opened = Some Demo.session
  /\ Forall (on_session Demo.session)
            (engineCalls
               (events (serve Demo.pw
                          (GetBoolProperty (getDomPropertyRequest.make "#box" "checked"))
                          Demo.opened))).
Proof.
  split; [reflexivity |].
  exact (engine_calls_on_session Demo.World Demo.pw
           (GetBoolProperty (getDomPropertyRequest.make "#box" "checked"))
           Demo.opened Demo.session eq_refl eq_refl).
Defined.

(** A screenshot: one call, with the extension appended to the path. *)
Lemma single_page_call_witness :
  browserState Demo.opened = Some Demo.session
  /\ engineCalls (events (serve Demo.pw (Screenshot (screenshotRequest.make "shot"))
                                Demo.opened))
     = [Page_screenshot (MkPage 2) "shot.png"]
  /\ outcome (serve Demo.pw (Screenshot (screenshotRequest.make "shot")) Demo.opened)
     = Return tt.
Proof.
  split; [reflexivity |].
  destruct (single_page_call Demo.World Demo.pw
              (Screenshot (screenshotRequest.make "shot")) Demo.opened Demo.session
              (Page_screenshot (MkPage 2) "shot.png") eq_refl eq_refl)
    as (Hcalls & _ & Hok).
  split; [exact Hcalls |].
  destruct (Hok tt (world Demo.opened) eq_refl) as [Hout _]. exact Hout.
Defined.

(** On the failing engine, chrome is launched, no context opens, and the
    session that was open stays stored. *)
Lemma openBrowser_creation_failure_witness :
  outcome (serve Faulty.pw (OpenBrowser (openBrowserRequest.make "chrome" "")) Demo.opened)
  = Throw (EngineError "Target closed")
  /\ callbacks (events (serve Faulty.pw (OpenBrowser (openBrowserRequest.make "chrome" ""))
                              Demo.opened)) = []
  /\ browserState
       (final (serve Faulty.pw (OpenBrowser (openBrowserRequest.make "chrome" ""))
                     Demo.opened))
     = Some Demo.session.
Proof.
  destruct (openBrowser_creation_failure Demo.World Faulty.pw "chrome" "" Demo.opened
              _ _ _ eq_refl) as (Hout & Hcb & Hkeep & _).
  exact (conj Hout (conj Hcb Hkeep)).
Defined.

(** Close, then click: the click is refused. *)
Lemma closed_session_rejects_requests_witness :
  callbacks
    (events (serve Demo.pw (ClickButton (selectorRequest.make "#go"))
                   (final (serve Demo.pw (CloseBrowser new_Empty) Demo.opened))))
  = [failure "Tried to click button, no open browser" status.FAILED_PRECONDITION].
Proof.
  destruct (closed_session_rejects_requests Demo.World Demo.pw new_Empty
              (ClickButton (selectorRequest.make "#go")) Demo.opened eq_refl eq_refl)
    as (_ & Hcb & _).
  exact Hcb.
Defined.

(** Open firefox at startup, then ask for the title: the title is read from
    the page just created. *)
Lemma opened_session_serves_requests_witness :
  engineCalls
    (events (serve Demo.pw (GetTitle new_Empty)
                   (final (serve Demo.pw (OpenBrowser (openBrowserRequest.make "firefox" ""))
                                 Demo.startup))))
  = [Page_title (MkPage 2)].
Proof.
  destruct (opened_session_serves_requests Demo.World Demo.pw "firefox" "" Demo.startup
              eq_refl) as (bs & s1 & t1 & Hcreate & _ & Hnext).
  injection Hcreate as <- _ _.
  exact (Hnext (GetTitle new_Empty) _ eq_refl).
Defined.

(** Text of an element that is there, and of one that is not. *)
Lemma getTextContent_body_witness :
  callbacks (events (serve Demo.pw (GetTextContent (selectorRequest.make "#missing"))
                           Demo.opened))
  = [success (Response_String (JString ""))].
Proof.
  exact (getTextContent_body Demo.World Demo.pw (selectorRequest.make "#missing")
           Demo.opened Demo.session None (world Demo.opened) eq_refl eq_refl).
Defined.

(** The checked state of a box that is checked. *)
Lemma property_handlers_answer_witness :
  callbacks (events (serve Demo.pw
                       (GetBoolProperty (getDomPropertyRequest.make "#box" "checked"))
                       Demo.opened))
  = [success (Response_Bool (JBool true))].
Proof.
  destruct (property_handlers_answer Demo.World Demo.pw
              (getDomPropertyRequest.make "#box" "checked") Demo.opened Demo.session
              (MkElementHandle 0) (MkJSHandle 0) (JBool true)
              (world Demo.opened) (world Demo.opened) (world Demo.opened)
              eq_refl eq_refl eq_refl eq_refl) as (_ & Hbool & _).
  exact (Hbool true eq_refl).
Defined.

(** At startup, a client that never opens a browser reaches no engine. *)
Lemma no_engine_call_before_open_witness :
  engineCalls
    (snd (serve_all Demo.pw
            [GetTitle new_Empty; Health new_Empty; CloseBrowser new_Empty;
             Screenshot (screenshotRequest.make "shot")]
            Demo.startup))
  = []
  /\ fst (serve_all Demo.pw
            [GetTitle new_Empty; Health new_Empty; CloseBrowser new_Empty;
             Screenshot (screenshotRequest.make "shot")]
            Demo.startup)
     = Demo.startup.
Proof.
  exact (no_engine_call_before_open Demo.World Demo.pw
           [GetTitle new_Empty; Health new_Empty; CloseBrowser new_Empty;
            Screenshot (screenshotRequest.make "shot")]
           Demo.startup eq_refl eq_refl).
Defined.

(** A title, a close and a click on an open session: the session is gone at
    the end, and no other came in. *)
Lemma no_new_session_without_open_witness :
  browserState
    (fst (serve_all Demo.pw
            [GetTitle new_Empty; CloseBrowser new_Empty;
             ClickButton (selectorRequest.make "#go")]
            Demo.opened))
  = browserState Demo.opened
  \/ browserState
       (fst (serve_all Demo.pw
               [GetTitle new_Empty; CloseBrowser new_Empty;
                ClickButton (selectorRequest.make "#go")]
               Demo.opened))
     = None.
Proof.
  exact (no_new_session_without_open Demo.World Demo.pw
           [GetTitle new_Empty; CloseBrowser new_Empty;
            ClickButton (selectorRequest.make "#go")]
           Demo.opened eq_refl).
Defined.

(** Chrome opened on a URL that resolves. *)
Lemma openBrowser_acknowledgement_witness :
  callbacks
    (events (serve Demo.pw (OpenBrowser (openBrowserRequest.make "chrome" "http://example.com"))
                   Demo.startup))
  = [success (Response_Empty "Succesfully opened URL http://example.com")].
Proof.
  exact (openBrowser_acknowledgement Demo.World Demo.pw "chrome" "http://example.com"
           Demo.startup eq_refl).
Defined.
